(** * flowEQ: autoencoder builders of [train/models.py]

    A shallow embedding of the model-construction and loss-composition code.

    Modelling choices, all visible in the definitions below:
    - tensors hold real numbers ([R]); a batch is a list of rows;
    - a Keras symbolic tensor is a [tensor] term, evaluated by [eval] once the
      placeholder of the enclosing model is fed with a batch;
    - the learnable parameters live in a store [weights], indexed by the
      identity of the layer that owns them, so two handles on one layer read
      the same parameters;
    - the random source is an explicit generator state [rng];
    - Python exceptions are values of [pyerror], threaded by the monad [M],
      whose state is the counter Keras uses to give fresh identities;
    - [summary()] only prints and is left out. *)

From Stdlib Require Import Reals Lra List String ZArith.
From stdpp Require Import gmap strings.

Open Scope R_scope.

(** ** Numerical backend: vectors, matrices and the [K.*] operations *)

Abbreviation vector := (list R).
Abbreviation matrix := (list (list R)).

Definition Rsum (v : vector) : R := fold_right Rplus 0 v.

(** Static second dimension of a batch, [K.int_shape(t)[1]]. On an empty
    batch no row is left to carry it; every use below multiplies it by a
    batch size of zero then. *)
Definition int_shape1 (m : matrix) : nat :=
  match m with
  | [] => O
  | r :: _ => length r
  end.

Definition has_width (w : nat) (m : matrix) : bool :=
  forallb (fun r => Nat.eqb (length r) w) m.

Definition has_shape (b d : nat) (m : matrix) : Prop :=
  length m = b /\ Forall (fun r => length r = d) m.

Definition mat_map (f : R -> R) (m : matrix) : matrix := map (map f) m.
Definition mat_zip (f : R -> R -> R) (a b : matrix) : matrix :=
  zip_with (zip_with f) a b.

Definition K_exp : matrix -> matrix := mat_map exp.
Definition K_square : matrix -> matrix := mat_map (fun v => v * v).
Definition K_abs : matrix -> matrix := mat_map Rabs.
Definition K_sum_axis1 (m : matrix) : vector := map Rsum m.
Definition K_mean_axis_last (m : matrix) : vector :=
  map (fun r => Rsum r / INR (length r)) m.
Definition K_mean (v : vector) : R := Rsum v / INR (length v).

Definition vec_add (a b : vector) : vector := zip_with Rplus a b.
Definition vec_scale (c : R) (v : vector) : vector := map (fun x => c * x) v.

(** [losses.mean_absolute_error(y_true, y_pred)]: the mean over the last axis
    of [|y_pred - y_true|], one value per row. *)
Definition mean_absolute_error (y_true y_pred : matrix) : vector :=
  K_mean_axis_last (K_abs (mat_zip Rminus y_pred y_true)).

(** *** Activations *)

Inductive activation :=
| Relu
| Sigmoid
| Linear
| Custom (f : vector -> vector).

Definition relu (x : R) : R := Rmax x 0.
Definition sigmoid (x : R) : R := 1 / (1 + exp (- x)).

Definition apply_activation (a : activation) (v : vector) : vector :=
  match a with
  | Relu => map relu v
  | Sigmoid => map sigmoid v
  | Linear => v
  | Custom f => f v
  end.

(** *** Dense layers and their parameters *)

Record layer_params := {
  kernel : nat -> nat -> R;
  bias : nat -> R
}.

Definition weights := nat -> layer_params.

Definition dot_col (x : vector) (col : nat -> R) : R :=
  Rsum (imap (fun i xi => xi * col i) x).

(** [activation(dot(x, kernel) + bias)] on one row. *)
Definition dense_row (p : layer_params) (units : nat) (a : activation)
    (x : vector) : vector :=
  apply_activation a
    (map (fun j => dot_col x (fun i => kernel p i j) + bias p j) (seq 0 units)).

Definition dense (p : layer_params) (units : nat) (a : activation)
    (m : matrix) : matrix :=
  map (dense_row p units a) m.

(** *** Random source *)

Record rng := {
  draws : nat -> R;
  pos : nat
}.

(** [K.random_normal(shape=(b, d), mean, stddev)]: [b * d] variates of the
    stream, scaled and shifted. *)
Definition random_normal (shape : nat * nat) (mean stddev : R) (g : rng)
    : matrix * rng :=
  let '(b, d) := shape in
  (map (fun r => map (fun c => mean + stddev * draws g (pos g + r * d + c)%nat)
                     (seq 0 d))
       (seq 0 b),
   {| draws := draws g; pos := (pos g + b * d)%nat |}).

(** ** [sample]: the reparameterization trick *)

Definition sample (args : matrix * matrix) (g : rng) : matrix * rng :=
  let '(mu, log_sigma) := args in
  let batch := length mu in
  let dim := int_shape1 mu in
  let '(epsilon, g') := random_normal (batch, dim) 0 1 g in
  (mat_zip Rplus mu
     (mat_zip Rmult (K_exp (mat_map (fun v => v * 0.5) log_sigma)) epsilon),
   g').

(** ** Symbolic tensors and their evaluation *)

Inductive tensor :=
| TInput (id : nat) (width : nat)
| TDense (layer : nat) (units : nat) (a : activation) (x : tensor)
| TSample (mu log_sigma : tensor)
| TCall (inp : nat) (width : nat) (body : tensor) (arg : tensor).

(** A model is closed over its own placeholder: the body of a call sees the
    argument and nothing else. Feeding a placeholder with rows of another
    width is refused. *)
Fixpoint eval (W : weights) (feed : nat * matrix) (t : tensor) (g : rng)
    : option (matrix * rng) :=
  match t with
  | TInput id width =>
      if Nat.eqb id (fst feed) && has_width width (snd feed)
      then Some (snd feed, g) else None
  | TDense l units a x =>
      match eval W feed x g with
      | Some (v, g1) => Some (dense (W l) units a v, g1)
      | None => None
      end
  | TSample mu log_sigma =>
      match eval W feed mu g with
      | Some (m, g1) =>
          match eval W feed log_sigma g1 with
          | Some (s, g2) => Some (sample (m, s) g2)
          | None => None
          end
      | None => None
      end
  | TCall inp width body arg =>
      match eval W feed arg g with
      | Some (v, g1) =>
          if has_width width v then eval W (inp, v) body g1 else None
      | None => None
      end
  end.

(** ** Python level: exceptions, fresh identities, name lookup *)

Inductive pyerror :=
| NameError (name : string)
| KeyError (key : string)
| AttributeError (attr : string)
| IndexError
| TypeError
| ValueError.

(** The state is the counter from which layers and placeholders take their
    identity. *)
Definition M (A : Type) : Type := nat -> pyerror + (A * nat).

#[global] Instance M_ret : MRet M := fun A a s => inr (a, s).
#[global] Instance M_bind : MBind M := fun A B f m s =>
  match m s with
  | inl e => inl e
  | inr (a, s') => f a s'
  end.

Definition raise {A : Type} (e : pyerror) : M A := fun _ => inl e.
Definition fresh : M nat := fun s => inr (s, S s).

(** Names bound at module level: the imports and the [def]s. *)
Definition module_globals : list string :=
  ["sys"; "tf"; "layers"; "losses"; "optimizers"; "K";
   "build_simple_autoencoder"; "build_single_layer_autoencoder";
   "build_multiple_layer_autoencoder";
   "build_single_layer_variational_autoencoder";
   "build_multiple_layer_variational_autoencoder";
   "sample"; "tune_single_layer_variational_autoencoder"].

(** The built-in functions and constants of Python 3 (the exception classes,
    none of which the module looks up, are left out). *)
Definition python_builtins : list string :=
  ["abs"; "all"; "any"; "ascii"; "bin"; "bool"; "breakpoint"; "bytearray";
   "bytes"; "callable"; "chr"; "classmethod"; "compile"; "complex";
   "delattr"; "dict"; "dir"; "divmod"; "enumerate"; "eval"; "exec";
   "filter"; "float"; "format"; "frozenset"; "getattr"; "globals";
   "hasattr"; "hash"; "help"; "hex"; "id"; "input"; "int"; "isinstance";
   "issubclass"; "iter"; "len"; "list"; "locals"; "map"; "max";
   "memoryview"; "min"; "next"; "object"; "oct"; "open"; "ord"; "pow";
   "print"; "property"; "range"; "repr"; "reversed"; "round"; "set";
   "setattr"; "slice"; "sorted"; "staticmethod"; "str"; "sum"; "super";
   "tuple"; "type"; "vars"; "zip"; "__import__";
   "True"; "False"; "None"; "NotImplemented"; "Ellipsis"; "__debug__"].

(** What a name that is not local to a function resolves to. *)
Inductive global_ref :=
| ModuleLevel (name : string)
| Builtin (name : string).

(** A name a function never assigns is looked up in the module, then among
    the built-ins. *)
Definition load_global (name : string) : M global_ref :=
  if bool_decide (name ∈ module_globals) then mret (ModuleLevel name)
  else if bool_decide (name ∈ python_builtins) then mret (Builtin name)
  else raise (NameError name).

(** ** Keras level: layers, models, compilation *)

Inductive optimizer := Adam (learning_rate : R).

Inductive loss_value :=
| PerRow (v : vector)
| Scalar (s : R).

(** A loss is named, or is a Python function of [(y_true, y_pred)]; the value
    of the tensor it returns depends on what the placeholders are fed with. *)
Inductive loss :=
| LossName (name : string)
| LossFn (f : matrix -> matrix -> weights -> nat * matrix -> rng
              -> option loss_value).

Record model := {
  m_name : string;
  m_input : nat;
  m_width : nat;
  m_outputs : list tensor;
  m_optimizer : option optimizer;
  m_loss : option loss
}.

Section Builders.

(** The activations of the backend beyond the three the module names. *)
Variable registry : string -> option (vector -> vector).

(** [activations.get]: the three names the module writes out; any other name
    is looked up in the rest of the registry. *)
Definition lookup_activation (name : string) : option activation :=
  if String.eqb name "relu" then Some Relu
  else if String.eqb name "sigmoid" then Some Sigmoid
  else if String.eqb name "linear" then Some Linear
  else Custom <$> registry name.

Definition activations_get (name : string) : M activation :=
  match lookup_activation name with
  | Some a => mret a
  | None => raise ValueError
  end.

(** [layers.Input(shape=(width,))] *)
Definition Input (width : nat) : M tensor :=
  id ← fresh; mret (TInput id width).

(** [layers.Dense(units, activation=name)(x)]: a new layer, applied once. *)
Definition Dense (units : nat) (name : string) (x : tensor) : M tensor :=
  a ← activations_get name;
  l ← fresh;
  mret (TDense l units a x).

(** [layers.Lambda(sample, output_shape=(latent_dim,))([mu, log_sigma])] *)
Definition Lambda_sample (latent_dim : nat) (args : tensor * tensor)
    : M tensor :=
  _ ← fresh; mret (TSample (fst args) (snd args)).

(** [tf.keras.Model(inputs, outputs, name=...)] *)
Definition Model (inputs : tensor) (outputs : list tensor) (name : string)
    : M model :=
  match inputs with
  | TInput id width =>
      mret {| m_name := name; m_input := id; m_width := width;
              m_outputs := outputs;
              m_optimizer := None; m_loss := None |}
  | _ => raise ValueError
  end.

(** Applying a model to a tensor re-applies its layers, sharing their
    parameters. *)
Definition call_model (m : model) (arg : tensor) : list tensor :=
  map (fun body => TCall (m_input m) (m_width m) body arg) (m_outputs m).

(** A model built from one output tensor returns one tensor. *)
Definition single (ts : list tensor) : M tensor :=
  match ts with
  | [t] => mret t
  | _ => raise TypeError
  end.

(** [ts[i]] on the list a model with several outputs returns. *)
Definition getitem (ts : list tensor) (i : nat) : M tensor :=
  match nth_error ts i with
  | Some t => mret t
  | None => raise IndexError
  end.

(** [m.compile(optimizer=..., loss=...)] records both on the model. *)
Definition compile (m : model) (o : optimizer) (l : loss) : model :=
  {| m_name := m_name m; m_input := m_input m; m_width := m_width m;
     m_outputs := m_outputs m;
     m_optimizer := Some o; m_loss := Some l |}.

(** [.compile] on what a global name resolved to: neither the imported
    modules, nor the functions of this module, nor a built-in has it. *)
Definition compile_global (r : global_ref) (o : optimizer) (l : loss)
    : M unit :=
  raise (AttributeError "compile").

(** Running a model on a batch. *)
Fixpoint eval_list (W : weights) (feed : nat * matrix) (ts : list tensor)
    (g : rng) : option (list matrix * rng) :=
  match ts with
  | [] => Some ([], g)
  | t :: ts' =>
      match eval W feed t g with
      | Some (v, g1) =>
          match eval_list W feed ts' g1 with
          | Some (vs, g2) => Some (v :: vs, g2)
          | None => None
          end
      | None => None
      end
  end.

Definition predict (m : model) (W : weights) (x : matrix) (g : rng)
    : option (list matrix * rng) :=
  eval_list W (m_input m, x) (m_outputs m) g.

(** ** Caller-supplied configuration and the training loop *)

Inductive pyval :=
| PyInt (z : Z)
| PyStr (s : string)
| PyNone.

(** [params[key]] *)
Definition dict_get (params : gmap string pyval) (key : string) : M pyval :=
  match params !! key with
  | Some v => mret v
  | None => raise (KeyError key)
  end.

(** The width of a layer, for a configuration that gives it as an integer.
    [Dense] passes any other value through [int]; that conversion is not
    modelled, and such a value is refused here. *)
Definition as_units (v : pyval) : M nat :=
  match v with
  | PyInt z => if (0 <=? z)%Z then mret (Z.to_nat z) else raise ValueError
  | _ => raise TypeError
  end.

(** An activation is given by name; [None] stands for the linear one. *)
Definition as_activation_name (v : pyval) : M string :=
  match v with
  | PyStr s => mret s
  | PyNone => mret "linear"%string
  | PyInt _ => raise TypeError
  end.

(** The keyword arguments of [fit]. *)
Record fit_args := {
  fit_x : matrix;
  fit_y : matrix;
  fit_shuffle : bool;
  fit_validation_data : option (matrix * matrix);
  fit_batch_size : nat;
  fit_epochs : pyval;
  fit_verbose : bool
}.

(** The body shared by the loss closures: the Kullback-Leibler sum of every
    row, [K.sum(K.exp(log_sigma) + K.square(mu) - 1. - log_sigma, axis=1)]. *)
Definition kl_sum (mu log_sigma : matrix) : vector :=
  K_sum_axis1
    (mat_zip Rminus
       (mat_map (fun v => v - 1)
          (mat_zip Rplus (K_exp log_sigma) (K_square mu)))
       log_sigma).

(** [vae_loss] of the two variational builders (the same text in both). It
    evaluates the tensors of the enclosing scope; [y_true] and [y_pred] are
    not read. *)
Definition vae_loss (inputs outputs mu log_sigma : tensor) (beta : R)
    (y_true y_pred : matrix) (W : weights) (feed : nat * matrix) (g : rng)
    : option loss_value :=
  '(inputs_v, g1) ← eval W feed inputs g;
  '(outputs_v, g2) ← eval W feed outputs g1;
  '(mu_v, g3) ← eval W feed mu g2;
  '(log_sigma_v, _) ← eval W feed log_sigma g3;
  let reconstruciton_loss := mean_absolute_error inputs_v outputs_v in
  let kl_loss := vec_scale 0.5 (kl_sum mu_v log_sigma_v) in
  Some (PerRow (vec_add reconstruciton_loss (vec_scale beta kl_loss))).

(** [vae_loss] of the tunable variant. *)
Definition tune_vae_loss (inputs outputs mu log_sigma : tensor) (beta : R)
    (y_true y_pred : matrix) (W : weights) (feed : nat * matrix) (g : rng)
    : option loss_value :=
  '(inputs_v, g1) ← eval W feed inputs g;
  '(outputs_v, g2) ← eval W feed outputs g1;
  '(mu_v, g3) ← eval W feed mu g2;
  '(log_sigma_v, _) ← eval W feed log_sigma g3;
  let recon := mean_absolute_error inputs_v outputs_v in
  let kl_loss := vec_scale (beta * 0.5) (kl_sum mu_v log_sigma_v) in
  Some (Scalar (K_mean (vec_add recon kl_loss))).


(** The record [fit] returns, and [fit] itself: the training loop of the
    backend, which updates the parameters and consumes randomness. *)
Variable history : Type.
Variable fit : model -> fit_args -> weights -> rng
               -> pyerror + (history * weights * rng).

Definition build_simple_autoencoder (latent_dim input_shape : nat)
    : M (model * model * model) :=
  inputs ← Input input_shape;
  z ← Dense latent_dim "relu" inputs;
  latent_inputs ← Input latent_dim;
  outputs ← Dense input_shape "sigmoid" latent_inputs;
  encoder ← Model inputs [z] "encoder";
  decoder ← Model latent_inputs [outputs] "decoder";
  e ← single (call_model encoder inputs);
  outputs ← single (call_model decoder e);
  autoencoder ← Model inputs [outputs] "autoencoder";
  let autoencoder :=
    compile autoencoder (Adam 0.001) (LossName "mean_absolute_error") in
  mret (autoencoder, encoder, decoder).

Definition build_single_layer_autoencoder (latent_dim input_shape : nat)
    : M (model * model * model) :=
  inputs ← Input input_shape;
  x ← Dense 256 "relu" inputs;
  z ← Dense latent_dim "relu" x;
  latent_inputs ← Input latent_dim;
  x ← Dense 256 "relu" latent_inputs;
  outputs ← Dense input_shape "sigmoid" latent_inputs;
  encoder ← Model inputs [z] "encoder";
  decoder ← Model latent_inputs [outputs] "decoder";
  e ← single (call_model encoder inputs);
  outputs ← single (call_model decoder e);
  autoencoder ← Model inputs [outputs] "autoencoder";
  let autoencoder :=
    compile autoencoder (Adam 0.001) (LossName "mean_absolute_error") in
  mret (autoencoder, encoder, decoder).

(** Lines 91 to 110 of [build_multiple_layer_autoencoder]: the three models,
    before the compile statement. *)
Definition multiple_layer_models (latent_dim input_shape : nat)
    : M (model * model * model) :=
  inputs ← Input input_shape;
  x ← Dense 13 "relu" inputs;
  x ← Dense 9 "relu" x;
  x ← Dense 6 "relu" x;
  x ← Dense 2 "relu" x;
  z ← Dense latent_dim "relu" x;
  latent_inputs ← Input latent_dim;
  x ← Dense 2 "relu" latent_inputs;
  x ← Dense 6 "relu" x;
  x ← Dense 9 "relu" x;
  x ← Dense 13 "relu" x;
  outputs ← Dense input_shape "sigmoid" x;
  encoder ← Model inputs [z] "encoder";
  decoder ← Model latent_inputs [outputs] "decoder";
  e ← single (call_model encoder inputs);
  outputs ← single (call_model decoder e);
  autoencoder ← Model inputs [outputs] "autoencoder";
  mret (autoencoder, encoder, decoder).

(** The compile statement names [model], which the function never binds. *)
Definition build_multiple_layer_autoencoder (latent_dim input_shape : nat)
    : M (model * model * model) :=
  '(autoencoder, encoder, decoder) ←
    multiple_layer_models latent_dim input_shape;
  model ← load_global "model";
  _ ← compile_global model (Adam 0.001) (LossName "mean_absolute_error");
  mret (autoencoder, encoder, decoder).

Definition build_single_layer_variational_autoencoder
    (latent_dim input_shape : nat) (beta : R) : M (model * model * model) :=
  inputs ← Input input_shape;
  x ← Dense 1024 "relu" inputs;
  mu ← Dense latent_dim "linear" x;
  log_sigma ← Dense latent_dim "linear" x;
  z ← Lambda_sample latent_dim (mu, log_sigma);
  latent_inputs ← Input latent_dim;
  x ← Dense 1024 "relu" latent_inputs;
  outputs ← Dense input_shape "sigmoid" x;
  encoder ← Model inputs [mu; log_sigma; z] "encoder";
  decoder ← Model latent_inputs [outputs] "decoder";
  e ← getitem (call_model encoder inputs) 2;
  outputs ← single (call_model decoder e);
  autoencoder ← Model inputs [outputs] "autoencoder";
  let autoencoder :=
    compile autoencoder (Adam 0.001)
      (LossFn (vae_loss inputs outputs mu log_sigma beta)) in
  mret (autoencoder, encoder, decoder).

Definition build_multiple_layer_variational_autoencoder
    (latent_dim input_shape : nat) (beta : R) : M (model * model * model) :=
  inputs ← Input input_shape;
  x ← Dense 128 "relu" inputs;
  x ← Dense 64 "relu" x;
  x ← Dense 32 "relu" x;
  mu ← Dense latent_dim "linear" x;
  log_sigma ← Dense latent_dim "linear" x;
  z ← Lambda_sample latent_dim (mu, log_sigma);
  latent_inputs ← Input latent_dim;
  x ← Dense 32 "relu" latent_inputs;
  x ← Dense 64 "relu" x;
  x ← Dense 128 "relu" x;
  outputs ← Dense input_shape "sigmoid" x;
  encoder ← Model inputs [mu; log_sigma; z] "encoder";
  decoder ← Model latent_inputs [outputs] "decoder";
  e ← getitem (call_model encoder inputs) 2;
  outputs ← single (call_model decoder e);
  autoencoder ← Model inputs [outputs] "autoencoder";
  let autoencoder :=
    compile autoencoder (Adam 0.001)
      (LossFn (vae_loss inputs outputs mu log_sigma beta)) in
  mret (autoencoder, encoder, decoder).

(** Lines 236 to 270 of [tune_single_layer_variational_autoencoder]: the
    compiled autoencoder handed to [fit]. *)
Definition tune_model (params : gmap string pyval) : M model :=
  let latent_dim := 2%nat in
  let input_shape := 13%nat in
  let beta := 0.001 in
  inputs ← Input input_shape;
  units ← dict_get params "encoder_units";
  act ← dict_get params "activation";
  units ← as_units units;
  act ← as_activation_name act;
  x ← Dense units act inputs;
  mu ← Dense latent_dim "linear" x;
  log_sigma ← Dense latent_dim "linear" x;
  z ← Lambda_sample latent_dim (mu, log_sigma);
  latent_inputs ← Input latent_dim;
  units ← dict_get params "decoder_units";
  act ← dict_get params "activation";
  units ← as_units units;
  act ← as_activation_name act;
  x ← Dense units act latent_inputs;
  outputs ← Dense input_shape "sigmoid" x;
  encoder ← Model inputs [mu; log_sigma; z] "encoder";
  decoder ← Model latent_inputs [outputs] "decoder";
  e ← getitem (call_model encoder inputs) 2;
  outputs ← single (call_model decoder e);
  autoencoder ← Model inputs [outputs] "autoencoder";
  mret (compile autoencoder (Adam 0.001)
          (LossFn (tune_vae_loss inputs outputs mu log_sigma beta))).

(** [W] is the parameter store as the initializers left it, [g] the state of
    the random source; the returned store holds the trained parameters of the
    returned model. *)
Definition tune_single_layer_variational_autoencoder
    (x_train y_train x_val y_val : matrix) (params : gmap string pyval)
    (W : weights) (g : rng) : M (history * model * weights * rng) :=
  autoencoder ← tune_model params;
  epochs ← dict_get params "epochs";
  match fit autoencoder
          {| fit_x := x_train; fit_y := x_train;
             fit_shuffle := true;
             fit_validation_data := Some (x_val, x_val);
             fit_batch_size := 8;
             fit_epochs := epochs;
             fit_verbose := false |} W g with
  | inl e => raise e
  | inr (h, W', g') => mret (h, autoencoder, W', g')
  end.

(** The three vanilla variants and the two variational ones, by name. *)
Inductive vanilla_variant := Simple | SingleHidden | MultiLayer.
Inductive variational_variant := SingleLayerVAE | MultiLayerVAE.

Definition vanilla_models (v : vanilla_variant) (latent_dim input_shape : nat)
    : M (model * model * model) :=
  match v with
  | Simple => build_simple_autoencoder latent_dim input_shape
  | SingleHidden => build_single_layer_autoencoder latent_dim input_shape
  | MultiLayer => multiple_layer_models latent_dim input_shape
  end.

Definition variational_builder (v : variational_variant)
    (latent_dim input_shape : nat) (beta : R) : M (model * model * model) :=
  match v with
  | SingleLayerVAE =>
      build_single_layer_variational_autoencoder latent_dim input_shape beta
  | MultiLayerVAE =>
      build_multiple_layer_variational_autoencoder latent_dim input_shape beta
  end.

(** [decoder(encoder(x))], run as two separate calls. *)
Definition decoder_after_encoder (encoder decoder : model) (W : weights)
    (x : matrix) (g : rng) : option (list matrix * rng) :=
  match predict encoder W x g with
  | Some ([z], g1) => predict decoder W z g1
  | _ => None
  end.

Definition nonneg_matrix (m : matrix) : Prop :=
  Forall (Forall (fun v => 0 <= v)) m.

(** ** Running the builders *)

Ltac run_builder :=
  cbv [vanilla_models variational_builder
       build_simple_autoencoder build_single_layer_autoencoder
       build_multiple_layer_autoencoder multiple_layer_models
       build_single_layer_variational_autoencoder
       build_multiple_layer_variational_autoencoder
       load_global compile_global mbind mret M_bind M_ret Input Dense
       Lambda_sample fresh activations_get lookup_activation Model single
       call_model getitem raise String.eqb Ascii.eqb Bool.eqb map
       m_input m_width m_outputs m_name m_loss m_optimizer compile
       nth_error fst snd].

(** ** Shapes and signs of dense layers *)

Lemma relu_nonneg (x : R) : 0 <= relu x.
Proof. unfold relu. apply Rmax_r. Qed.

Lemma length_dense p units a m : length (dense p units a m) = length m.
Proof. unfold dense. apply length_map. Qed.

Lemma length_dense_row p units a x :
  (forall f, a <> Custom f) -> length (dense_row p units a x) = units.
Proof.
  intros Ha. unfold dense_row.
  destruct a; cbn; rewrite ?length_map, ?length_seq; try reflexivity.
  exfalso. eapply Ha. reflexivity.
Qed.

Lemma has_width_true w m :
  has_width w m = true <-> Forall (fun r => length r = w) m.
Proof.
  unfold has_width. rewrite forallb_forall, Forall_forall.
  split; intros H r Hr.
  - apply Nat.eqb_eq, H. apply list_elem_of_In, Hr.
  - apply Nat.eqb_eq, H. apply list_elem_of_In, Hr.
Qed.

Lemma dense_has_width p units a m :
  (forall f, a <> Custom f) -> has_width units (dense p units a m) = true.
Proof.
  intros Ha. apply has_width_true. unfold dense.
  apply Forall_forall. intros r Hr.
  apply list_elem_of_fmap in Hr as (x & -> & _).
  now apply length_dense_row.
Qed.

Lemma dense_shape p units a m :
  (forall f, a <> Custom f) -> has_shape (length m) units (dense p units a m).
Proof.
  intros Ha. split.
  - apply length_dense.
  - apply has_width_true. now apply dense_has_width.
Qed.

Lemma dense_relu_nonneg p units m : nonneg_matrix (dense p units Relu m).
Proof.
  unfold nonneg_matrix, dense, dense_row. cbn.
  apply Forall_forall. intros r Hr.
  apply list_elem_of_fmap in Hr as (x & -> & _).
  apply Forall_forall. intros v Hv.
  apply list_elem_of_fmap in Hv as (y & -> & _).
  apply relu_nonneg.
Qed.

(** ** The vanilla builders *)

(** Evaluation steps used throughout. *)
Lemma eval_input W i w x g :
  has_width w x = true -> eval W (i, x) (TInput i w) g = Some (x, g).
Proof. intros H. cbn [eval fst snd]. now rewrite Nat.eqb_refl, H. Qed.

Lemma eval_input_bad W i w x g :
  has_width w x = false -> eval W (i, x) (TInput i w) g = None.
Proof. intros H. cbn [eval fst snd]. now rewrite Nat.eqb_refl, H. Qed.

Lemma eval_dense W feed l units a t g :
  eval W feed (TDense l units a t) g =
  match eval W feed t g with
  | Some (v, g1) => Some (dense (W l) units a v, g1)
  | None => None
  end.
Proof. reflexivity. Qed.

Lemma eval_call W feed i w body arg g :
  eval W feed (TCall i w body arg) g =
  match eval W feed arg g with
  | Some (v, g1) => if has_width w v then eval W (i, v) body g1 else None
  | None => None
  end.
Proof. reflexivity. Qed.

Lemma not_custom_relu : forall f, Relu <> Custom f.
Proof. discriminate. Qed.
Lemma not_custom_sigmoid : forall f, Sigmoid <> Custom f.
Proof. discriminate. Qed.
Lemma not_custom_linear : forall f, Linear <> Custom f.
Proof. discriminate. Qed.

Create HintDb shapes.
#[local] Hint Resolve not_custom_relu not_custom_sigmoid not_custom_linear
  : shapes.

Ltac width_side :=
  first [ assumption | apply dense_has_width; auto with shapes ].

Ltac eval_steps :=
  repeat first
    [ rewrite eval_call
    | rewrite eval_dense
    | rewrite eval_input by width_side
    | rewrite eval_input_bad by assumption
    | rewrite dense_has_width by auto with shapes
    | match goal with
      | H : has_width _ _ = _ |- _ => rewrite H
      end ].

(** C2: [build_multiple_layer_autoencoder] raises [NameError] on [model] for
    every latent dimension and input width: the claim that each of the six
    builders runs to completion and returns its triple fails on this one. *)
Theorem build_multiple_layer_autoencoder_raises (latent_dim input_shape n : nat) :
  build_multiple_layer_autoencoder latent_dim input_shape n
  = inl (NameError "model").
Proof. run_builder. vm_compute. reflexivity. Qed.

(** C6: for each vanilla variant the composed autoencoder, run on a batch,
    returns what the decoder returns on the output of the encoder: the same
    layers read the same parameters in both. *)
Theorem autoencoder_is_decoder_after_encoder
    (v : vanilla_variant) (latent_dim input_shape n : nat) :
  exists autoencoder encoder decoder n',
    vanilla_models v latent_dim input_shape n
    = inr (autoencoder, encoder, decoder, n')
    /\ forall W x g,
         predict autoencoder W x g
         = decoder_after_encoder encoder decoder W x g.
Proof.
  destruct v; run_builder; do 4 eexists; (split; [reflexivity|]);
    intros W x g; unfold decoder_after_encoder, predict;
    cbn [eval_list m_input m_outputs];
    destruct (has_width input_shape x) eqn:Hx; eval_steps; reflexivity.
Qed.

(** C7: for each vanilla variant and every batch of the input width, the
    encoder returns a latent batch of the latent width, none of whose
    components is negative. *)
Theorem vanilla_latent_nonneg
    (v : vanilla_variant) (latent_dim input_shape n : nat)
    (W : weights) (x : matrix) (g : rng) :
  has_width input_shape x = true ->
  exists autoencoder encoder decoder n' z,
    vanilla_models v latent_dim input_shape n
    = inr (autoencoder, encoder, decoder, n')
    /\ predict encoder W x g = Some ([z], g)
    /\ has_shape (length x) latent_dim z
    /\ nonneg_matrix z.
Proof.
  intros Hx.
  destruct v; run_builder; do 5 eexists; (split; [reflexivity|]);
    unfold predict; cbn [eval_list m_input m_outputs]; eval_steps;
    (split; [reflexivity|]); split.
  all: first [ apply dense_relu_nonneg
             | split; [ now rewrite !length_dense
                      | apply has_width_true, dense_has_width;
                        auto with shapes ] ].
Qed.

(** Overwriting the parameters of one layer. *)
Definition set_layer (W : weights) (l : nat) (p : layer_params) : weights :=
  fun k => if Nat.eqb k l then p else W k.

(** C1: the decoder built by [build_single_layer_autoencoder] applies its
    sigmoid layer to the latent input itself. The hidden layer of width 256,
    the fifth identity the builder takes, is created and left aside: whatever
    its parameters are overwritten with, the decoder returns the same batch. *)
Theorem single_layer_decoder_skips_hidden (latent_dim input_shape n : nat) :
  exists autoencoder encoder decoder n',
    build_single_layer_autoencoder latent_dim input_shape n
    = inr (autoencoder, encoder, decoder, n')
    /\ m_outputs decoder
       = [TDense (5 + n) input_shape Sigmoid (TInput (3 + n) latent_dim)]
    /\ (forall W z g,
          predict decoder W z g
          = if has_width latent_dim z
            then Some ([dense (W (5 + n)%nat) input_shape Sigmoid z], g)
            else None)
    /\ (forall W p z g,
          predict decoder (set_layer W (4 + n) p) z g
          = predict decoder W z g).
Proof.
  run_builder. do 4 eexists. split; [reflexivity|].
  split; [reflexivity|].
  assert (Hrun : forall W z g,
    predict
      {| m_name := "decoder"; m_input := S (S (S n)); m_width := latent_dim;
         m_outputs := [TDense (S (S (S (S (S n))))) input_shape Sigmoid
                         (TInput (S (S (S n))) latent_dim)];
         m_optimizer := None; m_loss := None |} W z g
    = if has_width latent_dim z
      then Some ([dense (W (5 + n)%nat) input_shape Sigmoid z], g)
      else None).
  { intros W z g. unfold predict. cbn [eval_list m_input m_outputs].
    destruct (has_width latent_dim z) eqn:Hz; eval_steps; reflexivity. }
  split; [exact Hrun|].
  intros W p z g. rewrite !Hrun. unfold set_layer.
  replace (Nat.eqb (5 + n) (4 + n)) with false; [reflexivity|].
  symmetry. apply Nat.eqb_neq. lia.
Qed.

(** ** The sampler *)

Definition entry (m : matrix) (r d : nat) : R := nth d (nth r m []) 0.

Lemma nth_zip_with {A B C} (f : A -> B -> C) (a : list A) (b : list B)
    (i : nat) (da : A) (db : B) (dc : C) :
  (i < length a)%nat -> (i < length b)%nat ->
  nth i (zip_with f a b) dc = f (nth i a da) (nth i b db).
Proof.
  revert b i. induction a as [|x a IH]; intros [|y b] [|i] Ha Hb;
    cbn in *; try lia; [reflexivity|].
  apply IH; lia.
Qed.

Lemma length_zip_with_same {A B C} (f : A -> B -> C) (a : list A)
    (b : list B) (k : nat) :
  length a = k -> length b = k -> length (zip_with f a b) = k.
Proof. intros Ha Hb. rewrite length_zip_with. lia. Qed.

Lemma has_shape_row b d m r :
  has_shape b d m -> (r < b)%nat -> length (nth r m []) = d.
Proof.
  intros [Hl Hw] Hr. rewrite Forall_forall in Hw. apply Hw.
  apply list_elem_of_In, nth_In. lia.
Qed.

Lemma has_shape_intro b d m :
  length m = b ->
  (forall r, (r < b)%nat -> length (nth r m []) = d) ->
  has_shape b d m.
Proof.
  intros Hl Hr. split; [assumption|].
  apply Forall_forall. intros row Hin.
  apply list_elem_of_In, (In_nth _ _ []) in Hin as (r & Hlt & <-).
  apply Hr. lia.
Qed.

Lemma mat_zip_shape f a b k d :
  has_shape k d a -> has_shape k d b -> has_shape k d (mat_zip f a b).
Proof.
  intros Ha Hb. unfold mat_zip. apply has_shape_intro.
  - apply length_zip_with_same; [apply Ha | apply Hb].
  - intros r Hr.
    rewrite (nth_zip_with (zip_with f) a b r [] [] []) by (destruct Ha, Hb; lia).
    apply length_zip_with_same; eapply has_shape_row; eassumption.
Qed.

Lemma mat_map_shape f a k d : has_shape k d a -> has_shape k d (mat_map f a).
Proof.
  intros Ha. unfold mat_map. apply has_shape_intro.
  - rewrite length_map. apply Ha.
  - intros r Hr.
    rewrite (nth_indep _ [] (map f [])) by (rewrite length_map; destruct Ha; lia).
    rewrite map_nth, length_map. eapply has_shape_row; eassumption.
Qed.

Lemma entry_mat_zip f a b k d r c :
  has_shape k d a -> has_shape k d b -> (r < k)%nat -> (c < d)%nat ->
  entry (mat_zip f a b) r c = f (entry a r c) (entry b r c).
Proof.
  intros Ha Hb Hr Hc. unfold entry, mat_zip.
  rewrite (nth_zip_with (zip_with f) a b r [] [] []) by (destruct Ha, Hb; lia).
  apply nth_zip_with.
  - rewrite (has_shape_row k d a r); assumption.
  - rewrite (has_shape_row k d b r); assumption.
Qed.

Lemma entry_mat_map f a k d r c :
  has_shape k d a -> (r < k)%nat -> (c < d)%nat ->
  entry (mat_map f a) r c = f (entry a r c).
Proof.
  intros Ha Hr Hc. unfold entry, mat_map.
  rewrite (nth_indep _ [] (map f [])) by (rewrite length_map; destruct Ha; lia).
  rewrite map_nth.
  rewrite (nth_indep _ 0 (f 0)).
  - apply map_nth.
  - rewrite length_map, (has_shape_row k d a r); assumption.
Qed.

Lemma random_normal_shape b d mean stddev g :
  has_shape b d (fst (random_normal (b, d) mean stddev g)).
Proof.
  cbn [random_normal fst]. split.
  - now rewrite length_map, length_seq.
  - apply Forall_forall. intros row Hin.
    apply list_elem_of_fmap in Hin as (r & -> & _).
    now rewrite length_map, length_seq.
Qed.

Lemma entry_random_normal b d mean stddev g r c :
  (r < b)%nat -> (c < d)%nat ->
  entry (fst (random_normal (b, d) mean stddev g)) r c
  = mean + stddev * draws g (pos g + r * d + c)%nat.
Proof.
  intros Hr Hc. unfold entry. cbn [random_normal fst].
  set (row := fun r0 : nat => map _ (seq 0 d)).
  rewrite (nth_indep _ [] (row 0%nat)) by (now rewrite length_map, length_seq).
  rewrite (map_nth row), seq_nth by assumption. unfold row.
  set (cell := fun c0 : nat => _).
  rewrite (nth_indep _ 0 (cell 0%nat)) by (now rewrite length_map, length_seq).
  rewrite (map_nth cell), seq_nth by assumption. reflexivity.
Qed.

(** The batch size and the width [sample] reads off [mu]. *)
Lemma sample_shape_inferred b d mu mean stddev g :
  has_shape b d mu ->
  random_normal (length mu, int_shape1 mu) mean stddev g
  = random_normal (b, d) mean stddev g.
Proof.
  intros [Hl Hw]. destruct mu as [|row mu].
  - cbn in Hl. subst b. reflexivity.
  - rewrite Hl. cbn [int_shape1]. inversion Hw; subst. reflexivity.
Qed.

Lemma sample_eq mu log_sigma g :
  sample (mu, log_sigma) g
  = (mat_zip Rplus mu
       (mat_zip Rmult (K_exp (mat_map (fun v => v * 0.5) log_sigma))
          (fst (random_normal (length mu, int_shape1 mu) 0 1 g))),
     snd (random_normal (length mu, int_shape1 mu) 0 1 g)).
Proof. reflexivity. Qed.

Lemma sample_value_shape (B D : nat) (mu log_sigma : matrix) (g : rng) :
  has_shape B D mu -> has_shape B D log_sigma ->
  has_shape B D (fst (sample (mu, log_sigma) g)).
Proof.
  intros Hmu Hls.
  rewrite sample_eq, (sample_shape_inferred B D) by assumption.
  cbn [fst]. apply mat_zip_shape; [assumption|].
  apply mat_zip_shape; [|apply random_normal_shape].
  unfold K_exp. auto using mat_map_shape.
Qed.

(** C4: on a mean and a log-variance of shape (B, D), [sample] draws one
    variate per (row, dimension) pair, each from its own position of the
    stream, and returns [mean + exp(0.5 * log_variance) * epsilon] entry by
    entry, in shape (B, D); the generator moves on by [B * D] draws. *)
Theorem sample_reparameterizes
    (B D : nat) (mu log_sigma : matrix) (g : rng) :
  has_shape B D mu -> has_shape B D log_sigma ->
  let epsilon := fst (random_normal (B, D) 0 1 g) in
  let z := fst (sample (mu, log_sigma) g) in
  has_shape B D epsilon
  /\ has_shape B D z
  /\ (forall r d, (r < B)%nat -> (d < D)%nat ->
        entry epsilon r d = draws g (pos g + r * D + d)%nat
        /\ entry z r d
           = entry mu r d + exp (0.5 * entry log_sigma r d) * entry epsilon r d)
  /\ pos (snd (sample (mu, log_sigma) g)) = (pos g + B * D)%nat.
Proof.
  intros Hmu Hls epsilon z. subst epsilon z.
  rewrite sample_eq, (sample_shape_inferred B D) by assumption.
  cbn [fst snd].
  pose proof (random_normal_shape B D 0 1 g) as Heps.
  assert (Hexp : has_shape B D (K_exp (mat_map (fun v => v * 0.5) log_sigma)))
    by (unfold K_exp; auto using mat_map_shape).
  assert (Hz : has_shape B D
            (mat_zip Rmult (K_exp (mat_map (fun v => v * 0.5) log_sigma))
               (fst (random_normal (B, D) 0 1 g))))
    by (now apply mat_zip_shape).
  split; [exact Heps|].
  split; [now apply mat_zip_shape|].
  split; [|reflexivity].
  intros r d Hr Hd. split.
  - rewrite entry_random_normal by assumption. lra.
  - rewrite (entry_mat_zip _ _ _ B D) by assumption.
    rewrite (entry_mat_zip _ _ _ B D) by assumption.
    unfold K_exp.
    rewrite (entry_mat_map _ _ B D) by auto using mat_map_shape.
    rewrite (entry_mat_map _ _ B D) by assumption.
    now rewrite (Rmult_comm 0.5).
Qed.

(** ** The loss, as the specification words it *)

(** [0.5 * sum over latent dimensions of
     (exp(log_variance) + mean^2 - 1 - log_variance)], for one row. *)
Definition spec_kl_term (mean log_variance : vector) : R :=
  0.5 * Rsum (zip_with (fun m lv => exp lv + m ^ 2 - 1 - lv) mean log_variance).

(** [mean_absolute_error(input, reconstruction)], for one row. *)
Definition spec_reconstruction_loss (input reconstruction : vector) : R :=
  Rsum (zip_with (fun a b => Rabs (a - b)) input reconstruction)
  / INR (length input).

(** [reconstruction_loss + beta * kl_term], row by row. *)
Definition spec_loss (beta : R) (input reconstruction mean log_variance : matrix)
    : vector :=
  map (fun r =>
         spec_reconstruction_loss (nth r input []) (nth r reconstruction [])
         + beta * spec_kl_term (nth r mean []) (nth r log_variance []))
      (seq 0 (length input)).

(** *** Row-level identities *)

Lemma Rsum_nil : Rsum [] = 0.
Proof. reflexivity. Qed.

Lemma Rsum_cons (a : R) (v : vector) : Rsum (a :: v) = a + Rsum v.
Proof. reflexivity. Qed.

Ltac rows := cbn [map zip_with length]; rewrite ?Rsum_cons, ?Rsum_nil.

Lemma kl_row_fused (m l : vector) :
  Rsum (zip_with Rminus
          (map (fun v => v - 1)
             (zip_with Rplus (map exp l) (map (fun v => v * v) m)))
          l)
  = Rsum (zip_with (fun a lv => exp lv + a ^ 2 - 1 - lv) m l).
Proof.
  revert l. induction m as [|a m IH]; intros [|lv l]; rows; try reflexivity.
  rewrite IH. ring.
Qed.

Lemma abs_row_fused (x y : vector) :
  map Rabs (zip_with Rminus y x) = zip_with (fun a b => Rabs (a - b)) x y.
Proof.
  revert y. induction x as [|a x IH]; intros [|b y]; rows; try reflexivity.
  now rewrite IH, Rabs_minus_sym.
Qed.

(** *** The Kullback-Leibler term of a batch *)

Lemma kl_term_rows (mu log_sigma : matrix) :
  vec_scale 0.5 (kl_sum mu log_sigma)
  = zip_with spec_kl_term mu log_sigma.
Proof.
  unfold kl_sum, K_sum_axis1, K_exp, K_square, mat_zip, mat_map, vec_scale.
  revert log_sigma. induction mu as [|m mu IH]; intros [|l ls];
    cbn [map zip_with]; try reflexivity.
  rewrite IH. unfold spec_kl_term. now rewrite kl_row_fused.
Qed.

(** *** The reconstruction term and the whole loss of a batch *)

Lemma mae_rows (B D : nat) (x recon : matrix) :
  has_shape B D x -> has_shape B D recon ->
  mean_absolute_error x recon = zip_with spec_reconstruction_loss x recon.
Proof.
  unfold mean_absolute_error, K_mean_axis_last, K_abs, mat_zip, mat_map.
  revert B recon. induction x as [|xr x IH]; intros B [|rr recon] [Hb Hx] [Hb' Hr];
    cbn [map zip_with length] in *; try reflexivity; try lia.
  inversion Hx as [|? ? Hx1 Hx2]; inversion Hr as [|? ? Hr1 Hr2]; subst.
  f_equal.
  - unfold spec_reconstruction_loss.
    rewrite abs_row_fused, length_zip_with. do 2 f_equal. lia.
  - apply (IH (length x)); split; auto; lia.
Qed.

Lemma zip_with_seq {A B C} (f : A -> B -> C) (a : list A) (b : list B)
    (da : A) (db : B) :
  length a = length b ->
  zip_with f a b
  = map (fun r => f (nth r a da) (nth r b db)) (seq 0 (length a)).
Proof.
  revert b. induction a as [|x a IH]; intros [|y b] Hlen;
    cbn [length] in Hlen; try discriminate; [reflexivity|].
  cbn [zip_with length seq map nth]. f_equal.
  rewrite <- seq_shift, map_map. apply IH. lia.
Qed.

Lemma zip_with_map_seq {C} (f g : nat -> R) (h : R -> R -> C) (s : list nat) :
  zip_with h (map f s) (map g s) = map (fun r => h (f r) (g r)) s.
Proof. induction s as [|r s IH]; cbn; [reflexivity | now rewrite IH]. Qed.

Lemma vae_loss_rows (beta : R) (B D L : nat) (x recon mu log_sigma : matrix) :
  has_shape B D x -> has_shape B D recon ->
  has_shape B L mu -> has_shape B L log_sigma ->
  vec_add (mean_absolute_error x recon)
    (vec_scale beta (vec_scale 0.5 (kl_sum mu log_sigma)))
  = spec_loss beta x recon mu log_sigma.
Proof.
  intros Hx Hr Hm Hl.
  rewrite (mae_rows B D) by assumption. rewrite kl_term_rows.
  destruct Hx as [Hbx _], Hr as [Hbr _], Hm as [Hbm _], Hl as [Hbl _].
  rewrite (zip_with_seq _ x recon [] []) by lia.
  rewrite (zip_with_seq _ mu log_sigma [] []) by lia.
  unfold vec_add, vec_scale, spec_loss.
  rewrite map_map. replace (length mu) with (length x) by lia.
  apply zip_with_map_seq.
Qed.

(** ** The variational builders *)

Lemma eval_sample W feed mu log_sigma g :
  eval W feed (TSample mu log_sigma) g =
  match eval W feed mu g with
  | Some (m, g1) =>
      match eval W feed log_sigma g1 with
      | Some (s, g2) => Some (fst (sample (m, s) g2), snd (sample (m, s) g2))
      | None => None
      end
  | None => None
  end.
Proof.
  cbn [eval]. destruct (eval W feed mu g) as [[m g1]|]; [|reflexivity].
  destruct (eval W feed log_sigma g1) as [[s g2]|]; [|reflexivity].
  now rewrite <- surjective_pairing.
Qed.

Lemma dense_shape_of (B : nat) p units a m :
  length m = B -> (forall f, a <> Custom f) ->
  has_shape B units (dense p units a m).
Proof. intros <- Ha. now apply dense_shape. Qed.

Lemma has_width_of_shape B D m : has_shape B D m -> has_width D m = true.
Proof. intros [_ H]. now apply has_width_true. Qed.

Lemma has_shape_of_width D m : has_width D m = true -> has_shape (length m) D m.
Proof. intros H. split; [reflexivity | now apply has_width_true]. Qed.

Lemma length_sample_value (mu log_sigma : matrix) (g : rng) :
  length log_sigma = length mu ->
  length (fst (sample (mu, log_sigma) g)) = length mu.
Proof.
  intros Hl. rewrite sample_eq. cbn [fst random_normal].
  unfold mat_zip, K_exp, mat_map.
  rewrite !length_zip_with, !length_map, length_seq. lia.
Qed.

Ltac length_side :=
  repeat first
    [ rewrite length_dense
    | rewrite length_sample_value by length_side ];
  reflexivity.

Ltac shape_side :=
  solve
    [ repeat first
        [ assumption
        | apply has_shape_of_width; assumption
        | apply sample_value_shape
        | apply dense_shape_of; [ length_side | auto with shapes ] ] ].

Ltac vae_width_side :=
  lazymatch goal with
  | |- has_width _ (fst (sample (?m, _) _)) = true =>
      apply (has_width_of_shape (length m)); shape_side
  | |- has_width _ (dense _ _ _ _) = true =>
      apply dense_has_width; auto with shapes
  | |- _ => assumption
  end.

Ltac vae_steps :=
  repeat first
    [ rewrite eval_call
    | rewrite eval_dense
    | rewrite eval_sample
    | match goal with
      | |- context [has_width ?d (fst (sample (?m, ?s) ?g))] =>
          rewrite (has_width_of_shape (length m) d (fst (sample (m, s) g)))
            by shape_side
      end
    | rewrite eval_input by vae_width_side
    | match goal with
      | |- context [has_width ?u (dense ?p ?u ?a ?m)] =>
          rewrite (dense_has_width p u a m) by auto with shapes
      | H : has_width _ _ = _ |- _ => rewrite H
      end
    | progress cbv beta iota delta [mbind option_bind] ].

(** What the closure computes once the tensors of the build scope are
    evaluated, with the shapes of the values involved. *)
Lemma variational_loss_eval
    (v : variational_variant) (latent_dim input_shape : nat) (beta : R)
    (n : nat) (W : weights) (x : matrix) (g : rng) :
  has_width input_shape x = true ->
  exists autoencoder encoder decoder n' f mu log_sigma z recon g',
    variational_builder v latent_dim input_shape beta n
    = inr (autoencoder, encoder, decoder, n')
    /\ m_loss autoencoder = Some (LossFn f)
    /\ predict encoder W x g = Some ([mu; log_sigma; z], g')
    /\ predict autoencoder W x g = Some ([recon], g')
    /\ has_shape (length x) latent_dim mu
    /\ has_shape (length x) latent_dim log_sigma
    /\ has_shape (length x) input_shape recon
    /\ forall y_true y_pred,
         f y_true y_pred W (m_input autoencoder, x) g
         = Some (PerRow
                   (vec_add (mean_absolute_error x recon)
                      (vec_scale beta
                         (vec_scale 0.5 (kl_sum mu log_sigma))))).
Proof.
  intros Hx.
  destruct v; run_builder; do 10 eexists; (split; [reflexivity|]);
    (split; [reflexivity|]).
  all: split;
    [ unfold predict; cbn [eval_list m_input m_outputs]; vae_steps;
      reflexivity | ].
  all: split;
    [ unfold predict; cbn [eval_list m_input m_outputs]; vae_steps;
      reflexivity | ].
  all: split; [shape_side|].
  all: split; [shape_side|].
  all: split; [shape_side|].
  all: intros y_true y_pred; unfold vae_loss; cbn [m_input]; vae_steps;
    reflexivity.
Qed.

(** C3: for both variational builders and every batch of the input width,
    the compiled loss is, row by row, the mean absolute error between the
    batch and its reconstruction plus [beta] times the Kullback-Leibler term
    of the mean and log-variance the encoder gives on that batch; the
    arguments [y_true] and [y_pred] do not enter. *)
Theorem variational_loss_formula
    (v : variational_variant) (latent_dim input_shape : nat) (beta : R)
    (n : nat) (W : weights) (x : matrix) (g : rng) :
  has_width input_shape x = true ->
  exists autoencoder encoder decoder n' f mu log_sigma z recon g',
    variational_builder v latent_dim input_shape beta n
    = inr (autoencoder, encoder, decoder, n')
    /\ m_loss autoencoder = Some (LossFn f)
    /\ predict encoder W x g = Some ([mu; log_sigma; z], g')
    /\ predict autoencoder W x g = Some ([recon], g')
    /\ forall y_true y_pred,
         f y_true y_pred W (m_input autoencoder, x) g
         = Some (PerRow (spec_loss beta x recon mu log_sigma)).
Proof.
  intros Hx.
  destruct (variational_loss_eval v latent_dim input_shape beta n W x g Hx)
    as (ae & enc & dec & n' & f & mu & ls & z & recon & g' & Hb & Hl & He
        & Ha & Hmu & Hls & Hrec & Hf).
  exists ae, enc, dec, n', f, mu, ls, z, recon, g'.
  repeat (split; [assumption|]).
  intros y_true y_pred. rewrite Hf. do 2 f_equal.
  apply (vae_loss_rows beta (length x) input_shape latent_dim);
    try assumption.
  now apply has_shape_of_width.
Qed.

(** ** The tunable variant *)

(** The model [tune_model] returns on a well-formed configuration. *)
Lemma tune_model_value
    (params : gmap string pyval) (eu du : Z) (act : string) (a : activation)
    (n : nat) :
  params !! "encoder_units" = Some (PyInt eu) -> (0 <= eu)%Z ->
  params !! "decoder_units" = Some (PyInt du) -> (0 <= du)%Z ->
  params !! "activation" = Some (PyStr act) ->
  lookup_activation act = Some a ->
  let inputs := TInput n 13 in
  let hidden := TDense (1 + n) (Z.to_nat eu) a inputs in
  let mu := TDense (2 + n) 2 Linear hidden in
  let log_sigma := TDense (3 + n) 2 Linear hidden in
  let outputs :=
    TCall (5 + n) 2
      (TDense (7 + n) 13 Sigmoid
         (TDense (6 + n) (Z.to_nat du) a (TInput (5 + n) 2)))
      (TCall n 13 (TSample mu log_sigma) inputs) in
  tune_model params n
  = inr ({| m_name := "autoencoder"; m_input := n; m_width := 13;
            m_outputs := [outputs];
            m_optimizer := Some (Adam 0.001);
            m_loss :=
              Some (LossFn (tune_vae_loss inputs outputs mu log_sigma 0.001))
         |}, (8 + n)%nat).
Proof.
  intros Heu Heu0 Hdu Hdu0 Hact Ha inputs hidden mu log_sigma outputs.
  unfold tune_model, dict_get, as_units, as_activation_name, Dense,
    activations_get.
  cbv [mbind M_bind mret M_ret Input fresh].
  rewrite Heu, Hact, Hdu. cbv beta iota.
  apply Z.leb_le in Heu0, Hdu0. rewrite Heu0, Hdu0, Ha.
  cbv [lookup_activation String.eqb Ascii.eqb Bool.eqb Lambda_sample fresh
       mbind M_bind mret M_ret Model call_model getitem single map
       nth_error m_input m_width m_outputs fst snd raise].
  reflexivity.
Qed.

(** C9: whatever well-formed configuration is passed, the model handed to
    [fit] has input width 13, mean and log-variance heads of width 2 and a
    loss weighted by 0.001; the configuration only sets the two hidden widths
    and their activation. [fit] is called with batch size 8, shuffling on,
    the validation inputs as validation data, verbosity off and the
    configured number of epochs. *)
Theorem tune_fixed_constants
    (params : gmap string pyval) (eu du : Z) (act : string) (a : activation)
    (ep : pyval) (x_train y_train x_val y_val : matrix)
    (W : weights) (g : rng) (n : nat) :
  params !! "encoder_units" = Some (PyInt eu) -> (0 <= eu)%Z ->
  params !! "decoder_units" = Some (PyInt du) -> (0 <= du)%Z ->
  params !! "activation" = Some (PyStr act) ->
  lookup_activation act = Some a ->
  params !! "epochs" = Some ep ->
  let inputs := TInput n 13 in
  let hidden := TDense (1 + n) (Z.to_nat eu) a inputs in
  let mu := TDense (2 + n) 2 Linear hidden in
  let log_sigma := TDense (3 + n) 2 Linear hidden in
  let outputs :=
    TCall (5 + n) 2
      (TDense (7 + n) 13 Sigmoid
         (TDense (6 + n) (Z.to_nat du) a (TInput (5 + n) 2)))
      (TCall n 13 (TSample mu log_sigma) inputs) in
  let autoencoder :=
    {| m_name := "autoencoder"; m_input := n; m_width := 13;
       m_outputs := [outputs];
       m_optimizer := Some (Adam 0.001);
       m_loss := Some (LossFn (tune_vae_loss inputs outputs mu log_sigma 0.001))
    |} in
  tune_model params n = inr (autoencoder, (8 + n)%nat)
  /\ tune_single_layer_variational_autoencoder
       x_train y_train x_val y_val params W g n
     = match fit autoencoder
               {| fit_x := x_train; fit_y := x_train;
                  fit_shuffle := true;
                  fit_validation_data := Some (x_val, x_val);
                  fit_batch_size := 8;
                  fit_epochs := ep;
                  fit_verbose := false |} W g with
       | inl e => inl e
       | inr (h, W', g') => inr (h, autoencoder, W', g', (8 + n)%nat)
       end.
Proof.
  intros Heu Heu0 Hdu Hdu0 Hact Ha Hep inputs hidden mu log_sigma outputs
    autoencoder.
  assert (Hmodel : tune_model params n = inr (autoencoder, (8 + n)%nat))
    by (now apply (tune_model_value params eu du act a n)).
  split; [exact Hmodel|].
  unfold tune_single_layer_variational_autoencoder.
  cbv [mbind M_bind]. rewrite Hmodel. unfold dict_get. rewrite Hep.
  cbv [mret M_ret raise].
  destruct (fit _ _ W g) as [e|[[h W'] g']]; reflexivity.
Qed.

(** C10: the targets [y_train] and [y_val] are not read: two calls that
    differ only in them return the same history, model, parameters and
    generator state, or raise the same exception. *)
Theorem tune_ignores_targets
    (x_train x_val y_train y_val y_train' y_val' : matrix)
    (params : gmap string pyval) (W : weights) (g : rng) (n : nat) :
  tune_single_layer_variational_autoencoder
    x_train y_train x_val y_val params W g n
  = tune_single_layer_variational_autoencoder
      x_train y_train' x_val y_val' params W g n.
Proof. reflexivity. Qed.

(** ** The two reduction policies *)

Definition zero_params : layer_params :=
  {| kernel := fun _ _ => 0; bias := fun _ => 0 |}.

Definition zero_weights : weights := fun _ => zero_params.

Definition zero_rng : rng := {| draws := fun _ => 0; pos := 0 |}.

(** A batch of two rows of width 13: one at [1/2] throughout, one at [0]. *)
Definition two_rows : matrix := [replicate 13 (1 / 2); replicate 13 0].

(** The configuration under which the tunable variant has the hidden widths
    and activation of [build_single_layer_variational_autoencoder]. *)
Definition same_as_build : gmap string pyval :=
  <["encoder_units" := PyInt 1024]>
    (<["decoder_units" := PyInt 1024]>
       (<["activation" := PyStr "relu"]>
          (<["epochs" := PyInt 2]> ∅))).



(** ** Further properties of the builders *)

(** Every set of three models the module builds: the vanilla ones and, for a
    given [beta], the variational ones. *)
Inductive variant :=
| Vanilla (v : vanilla_variant)
| Variational (v : variational_variant) (beta : R).

Definition models_of (var : variant) (latent_dim input_shape : nat)
    : M (model * model * model) :=
  match var with
  | Vanilla v => vanilla_models v latent_dim input_shape
  | Variational v beta => variational_builder v latent_dim input_shape beta
  end.

(** For every variant the decoder maps a latent batch of the latent width to
    a batch with as many rows and the input width, drawing nothing from the
    random source; the composed autoencoder maps a batch of the input width
    to a batch of the same shape. *)
Theorem decoder_and_autoencoder_shapes
    (var : variant) (latent_dim input_shape n : nat)
    (W : weights) (x z : matrix) (g : rng) :
  has_width input_shape x = true ->
  has_width latent_dim z = true ->
  exists autoencoder encoder decoder n' y recon g',
    models_of var latent_dim input_shape n
    = inr (autoencoder, encoder, decoder, n')
    /\ predict decoder W z g = Some ([y], g)
    /\ has_shape (length z) input_shape y
    /\ predict autoencoder W x g = Some ([recon], g')
    /\ has_shape (length x) input_shape recon.
Proof.
  intros Hx Hz.
  destruct var as [[]|[] beta]; unfold models_of; run_builder;
    do 7 eexists; (split; [reflexivity|]).
  all: split;
    [ unfold predict; cbn [eval_list m_input m_outputs]; vae_steps;
      reflexivity | ].
  all: split; [shape_side|].
  all: split;
    [ unfold predict; cbn [eval_list m_input m_outputs]; vae_steps;
      reflexivity | ].
  all: shape_side.
Qed.

(** For both variational builders the composed autoencoder is the decoder
    run on the third output of the encoder, the sample; the mean and the
    log-variance do not enter the forward pass. *)
Theorem variational_autoencoder_decodes_sample
    (v : variational_variant) (latent_dim input_shape : nat) (beta : R)
    (n : nat) :
  exists autoencoder encoder decoder n',
    variational_builder v latent_dim input_shape beta n
    = inr (autoencoder, encoder, decoder, n')
    /\ forall W x g,
         predict autoencoder W x g
         = match predict encoder W x g with
           | Some ([_; _; z], g1) => predict decoder W z g1
           | _ => None
           end.
Proof.
  destruct v; run_builder; do 4 eexists; (split; [reflexivity|]);
    intros W x g; unfold predict; cbn [eval_list m_input m_outputs];
    destruct (has_width input_shape x) eqn:Hx.
  all: repeat first
         [ rewrite eval_input_bad by assumption
         | progress vae_steps ];
       reflexivity.
Qed.

Ltac refold_proj :=
  repeat match goal with
    | |- context C [let (a, _) := ?p in a] =>
        let G := context C [fst p] in change G
    | |- context C [let (_, b) := ?p in b] =>
        let G := context C [snd p] in change G
    end.

Lemma sample_pos (B D : nat) (mu log_sigma : matrix) (g : rng) :
  has_shape B D mu ->
  pos (snd (sample (mu, log_sigma) g)) = (pos g + B * D)%nat
  /\ draws (snd (sample (mu, log_sigma) g)) = draws g.
Proof.
  intros Hmu. rewrite sample_eq, (sample_shape_inferred B D) by assumption.
  split; reflexivity.
Qed.

(** On a batch of the input width a variational encoder returns the mean,
    the log-variance and their sample, each of shape (batch, latent_dim).
    The mean and the log-variance do not depend on the random source; the
    sample takes [batch * latent_dim] draws from it. *)
Theorem variational_encoder_outputs
    (v : variational_variant) (latent_dim input_shape : nat) (beta : R)
    (n : nat) (W : weights) (x : matrix) :
  has_width input_shape x = true ->
  exists autoencoder encoder decoder n' mu log_sigma,
    variational_builder v latent_dim input_shape beta n
    = inr (autoencoder, encoder, decoder, n')
    /\ has_shape (length x) latent_dim mu
    /\ has_shape (length x) latent_dim log_sigma
    /\ forall g,
         predict encoder W x g
         = Some ([mu; log_sigma; fst (sample (mu, log_sigma) g)],
                 snd (sample (mu, log_sigma) g))
         /\ has_shape (length x) latent_dim (fst (sample (mu, log_sigma) g))
         /\ pos (snd (sample (mu, log_sigma) g))
            = (pos g + length x * latent_dim)%nat.
Proof.
  intros Hx.
  destruct v; run_builder; do 6 eexists; (split; [reflexivity|]).
  all: split; [|split].
  all: try (intros g; refold_proj; split;
    [ unfold predict; cbn [eval_list m_input m_outputs]; vae_steps;
      reflexivity | ]).
  all: try (split; [shape_side | apply sample_pos; shape_side]).
  all: shape_side.
Qed.

(** *** Which parameters a model reads *)

Fixpoint tensor_layers (t : tensor) : list nat :=
  match t with
  | TInput _ _ => []
  | TDense l _ _ x => l :: tensor_layers x
  | TSample mu log_sigma => tensor_layers mu ++ tensor_layers log_sigma
  | TCall _ _ body arg => tensor_layers body ++ tensor_layers arg
  end.

Definition model_layers (m : model) : list nat :=
  concat (map tensor_layers (m_outputs m)).

Lemma eval_ext (W W' : weights) (t : tensor) :
  (forall l, In l (tensor_layers t) -> W l = W' l) ->
  forall feed g, eval W feed t g = eval W' feed t g.
Proof.
  induction t as [id w|l u a t IH|mu IHmu ls IHls|i w body IHb arg IHa];
    intros H feed g; cbn [eval tensor_layers] in *.
  - reflexivity.
  - rewrite IH by (intros k Hk; apply H; now right).
    rewrite (H l) by (now left). reflexivity.
  - rewrite IHmu by (intros k Hk; apply H, in_or_app; now left).
    destruct (eval W' feed mu g) as [[m g1]|]; [|reflexivity].
    rewrite IHls by (intros k Hk; apply H, in_or_app; now right).
    reflexivity.
  - rewrite IHa by (intros k Hk; apply H, in_or_app; now right).
    destruct (eval W' feed arg g) as [[v g1]|]; [|reflexivity].
    destruct (has_width w v); [|reflexivity].
    apply IHb. intros k Hk. apply H, in_or_app. now left.
Qed.

Lemma eval_list_ext (W W' : weights) (ts : list tensor) :
  (forall l, In l (concat (map tensor_layers ts)) -> W l = W' l) ->
  forall feed g, eval_list W feed ts g = eval_list W' feed ts g.
Proof.
  induction ts as [|t ts IH]; intros H feed g; [reflexivity|].
  cbn [eval_list map concat] in *.
  rewrite (eval_ext W W' t) by (intros k Hk; apply H, in_or_app; now left).
  destruct (eval W' feed t g) as [[v g1]|]; [|reflexivity].
  rewrite IH by (intros k Hk; apply H, in_or_app; now right).
  reflexivity.
Qed.

Lemma predict_ext (m : model) (W W' : weights) :
  (forall l, In l (model_layers m) -> W l = W' l) ->
  forall x g, predict m W x g = predict m W' x g.
Proof. intros H x g. now apply eval_list_ext. Qed.

(** A build started at counter [n] ends at a later counter [n']; the decoder
    and the composed autoencoder read parameters of layers created in between
    only, the autoencoder reads those its encoder and decoder read, and no
    model's result changes when the parameters of a layer outside [n, n') are
    overwritten. *)
Theorem models_read_own_layers
    (var : variant) (latent_dim input_shape n : nat) :
  exists autoencoder encoder decoder n',
    models_of var latent_dim input_shape n
    = inr (autoencoder, encoder, decoder, n')
    /\ (n < n')%nat
    /\ (forall l, In l (model_layers encoder ++ model_layers decoder) ->
          (n <= l < n')%nat)
    /\ (forall l, In l (model_layers autoencoder) ->
          In l (model_layers encoder ++ model_layers decoder))
    /\ forall W l p x g,
         (l < n \/ n' <= l)%nat ->
         predict autoencoder (set_layer W l p) x g = predict autoencoder W x g
         /\ predict encoder (set_layer W l p) x g = predict encoder W x g
         /\ predict decoder (set_layer W l p) x g = predict decoder W x g.
Proof.
  assert (Hset : forall (m : model) (lo hi : nat),
            (forall l, In l (model_layers m) -> (lo <= l < hi)%nat) ->
            forall W l p x g, (l < lo \/ hi <= l)%nat ->
              predict m (set_layer W l p) x g = predict m W x g).
  { intros m lo hi Hm W l p x g Hl. apply predict_ext. intros k Hk.
    unfold set_layer. apply Hm in Hk.
    replace (Nat.eqb k l) with false; [reflexivity|].
    symmetry. apply Nat.eqb_neq. lia. }
  destruct var as [[]|[] beta]; unfold models_of; run_builder;
    do 4 eexists; (split; [reflexivity|]); (split; [lia|]).
  all: match goal with
       | |- ?Hrange /\ ?Hshare /\ _ =>
           assert (Hr : Hrange);
           [ cbn [model_layers m_outputs map concat tensor_layers app In];
             intros l Hl;
             repeat (destruct Hl as [<-|Hl]; [lia|]); contradiction
           | assert (Hs : Hshare);
             [ cbn [model_layers m_outputs map concat tensor_layers app In];
               intros l Hl; tauto
             | split; [exact Hr|]; split; [exact Hs|] ] ]
       end.
  all: intros W l p x g Hl; repeat split;
    (eapply Hset; [|exact Hl]); intros k Hk;
    first [ apply Hr, in_or_app; now left
          | apply Hr, in_or_app; now right
          | apply Hr, Hs, Hk ].
Qed.

(** *** Successive samples *)

Lemma sample_entry (B D : nat) (mu log_sigma : matrix) (g : rng) (r d : nat) :
  has_shape B D mu -> has_shape B D log_sigma ->
  (r < B)%nat -> (d < D)%nat ->
  entry (fst (sample (mu, log_sigma) g)) r d
  = entry mu r d
    + exp (0.5 * entry log_sigma r d) * draws g (pos g + r * D + d)%nat.
Proof.
  intros Hmu Hls Hr Hd.
  rewrite sample_eq, (sample_shape_inferred B D) by assumption.
  cbn [fst].
  pose proof (random_normal_shape B D 0 1 g) as Heps.
  assert (Hexp : has_shape B D (K_exp (mat_map (fun v => v * 0.5) log_sigma)))
    by (unfold K_exp; auto using mat_map_shape).
  rewrite (entry_mat_zip _ _ _ B D)
    by (try assumption; now apply mat_zip_shape).
  rewrite (entry_mat_zip _ _ _ B D) by assumption.
  unfold K_exp.
  rewrite (entry_mat_map _ _ B D) by auto using mat_map_shape.
  rewrite (entry_mat_map _ _ B D) by assumption.
  rewrite entry_random_normal by assumption.
  rewrite (Rmult_comm 0.5). f_equal. f_equal. lra.
Qed.

(** Two calls of [sample] in a row never read the same variate: the first
    reads the [B * D] positions from the generator's position on, one per
    (row, dimension) pair, the second the [B * D] positions after those. *)
Theorem sample_twice_fresh_draws
    (B D : nat) (mu log_sigma mu' log_sigma' : matrix) (g : rng) :
  has_shape B D mu -> has_shape B D log_sigma ->
  has_shape B D mu' -> has_shape B D log_sigma' ->
  let first := sample (mu, log_sigma) g in
  let second := sample (mu', log_sigma') (snd first) in
  forall r d, (r < B)%nat -> (d < D)%nat ->
    entry (fst first) r d
    = entry mu r d
      + exp (0.5 * entry log_sigma r d) * draws g (pos g + (r * D + d))%nat
    /\ entry (fst second) r d
       = entry mu' r d
         + exp (0.5 * entry log_sigma' r d)
           * draws g (pos g + (B * D + (r * D + d)))%nat
    /\ (r * D + d < B * D)%nat
    /\ (forall r' d', (r' < B)%nat -> (d' < D)%nat ->
          (r * D + d = r' * D + d')%nat -> r = r' /\ d = d').
Proof.
  intros Hmu Hls Hmu' Hls' first second r d Hr Hd. subst first second.
  destruct (sample_pos B D mu log_sigma g Hmu) as [Hpos Hdraws].
  split; [|split; [|split]].
  - rewrite (sample_entry B D) by assumption. now rewrite Nat.add_assoc.
  - rewrite (sample_entry B D) by assumption.
    rewrite Hpos, Hdraws. do 3 f_equal. lia.
  - nia.
  - intros r' d' Hr' Hd' Heq.
    assert (r = r') by nia. subst r'. split; [reflexivity | lia].
Qed.

(** *** The tunable variant and its configuration *)

(** The keys are read in the order the source names them, and the first one
    missing is the one the [KeyError] reports; a missing [epochs] is only
    found after the model is built, and [fit] is not called. *)
Theorem tune_key_errors
    (x_train y_train x_val y_val : matrix) (params : gmap string pyval)
    (W : weights) (g : rng) (n : nat)
    (eu du : Z) (act : string) (a : activation) :
  let result :=
    tune_single_layer_variational_autoencoder
      x_train y_train x_val y_val params W g n in
  (params !! "encoder_units" = None ->
   result = inl (KeyError "encoder_units"))
  /\ (params !! "encoder_units" = Some (PyInt eu) ->
      params !! "activation" = None ->
      result = inl (KeyError "activation"))
  /\ (params !! "encoder_units" = Some (PyInt eu) -> (0 <= eu)%Z ->
      params !! "activation" = Some (PyStr act) ->
      lookup_activation act = Some a ->
      params !! "decoder_units" = None ->
      result = inl (KeyError "decoder_units"))
  /\ (params !! "encoder_units" = Some (PyInt eu) -> (0 <= eu)%Z ->
      params !! "activation" = Some (PyStr act) ->
      lookup_activation act = Some a ->
      params !! "decoder_units" = Some (PyInt du) -> (0 <= du)%Z ->
      params !! "epochs" = None ->
      result = inl (KeyError "epochs")).
Proof.
  intros result. subst result.
  unfold tune_single_layer_variational_autoencoder.
  split; [|split; [|split]].
  - intros Heu.
    unfold tune_model, dict_get. cbv [mbind M_bind mret M_ret Input fresh].
    now rewrite Heu.
  - intros Heu Hact.
    unfold tune_model, dict_get. cbv [mbind M_bind mret M_ret Input fresh].
    now rewrite Heu, Hact.
  - intros Heu Heu0 Hact Ha Hdu.
    unfold tune_model, dict_get, as_units, as_activation_name, Dense,
      activations_get.
    cbv [mbind M_bind mret M_ret Input fresh].
    rewrite Heu, Hact, Hdu. cbv beta iota.
    apply Z.leb_le in Heu0. rewrite Heu0, Ha.
    reflexivity.
  - intros Heu Heu0 Hact Ha Hdu Hdu0 Hep.
    cbv [mbind M_bind].
    rewrite (tune_model_value params eu du act a n) by assumption.
    unfold dict_get. now rewrite Hep.
Qed.

(** *** The six builders as the module names them *)

Inductive builder :=
| BuildSimple
| BuildSingleLayer
| BuildMultipleLayer
| BuildSingleLayerVariational
| BuildMultipleLayerVariational.

(** [beta] is read by the variational builders only. *)
Definition call_builder (b : builder) (latent_dim input_shape : nat)
    (beta : R) : M (model * model * model) :=
  match b with
  | BuildSimple => build_simple_autoencoder latent_dim input_shape
  | BuildSingleLayer => build_single_layer_autoencoder latent_dim input_shape
  | BuildMultipleLayer =>
      build_multiple_layer_autoencoder latent_dim input_shape
  | BuildSingleLayerVariational =>
      build_single_layer_variational_autoencoder latent_dim input_shape beta
  | BuildMultipleLayerVariational =>
      build_multiple_layer_variational_autoencoder latent_dim input_shape beta
  end.

Definition is_variational (b : builder) : bool :=
  match b with
  | BuildSingleLayerVariational | BuildMultipleLayerVariational => true
  | _ => false
  end.

(** For positive widths every builder but the multi-layer vanilla one
    returns. Only the autoencoder is compiled, with Adam at learning rate
    0.001 and, as loss, the mean absolute error by name (vanilla) or the
    closure [vae_loss] over the input placeholder, the output of the
    autoencoder and the mean and log-variance tensors of the encoder, with
    the [beta] passed in (variational); the encoder and the decoder come back
    uncompiled. The autoencoder and the encoder share the input placeholder,
    of the input width; the decoder has a placeholder of its own, of the
    latent width. *)
Theorem builders_return
    (b : builder) (latent_dim input_shape : nat) (beta : R) (n : nat) :
  b <> BuildMultipleLayer ->
  (0 < latent_dim)%nat -> (0 < input_shape)%nat ->
  exists autoencoder encoder decoder n',
    call_builder b latent_dim input_shape beta n
    = inr (autoencoder, encoder, decoder, n')
    /\ m_optimizer autoencoder = Some (Adam 0.001)
    /\ (if is_variational b
        then exists outputs mu log_sigma z,
               m_outputs autoencoder = [outputs]
               /\ m_outputs encoder = [mu; log_sigma; z]
               /\ m_loss autoencoder
                  = Some (LossFn
                            (vae_loss
                               (TInput (m_input autoencoder) input_shape)
                               outputs mu log_sigma beta))
        else m_loss autoencoder = Some (LossName "mean_absolute_error"))
    /\ m_optimizer encoder = None /\ m_loss encoder = None
    /\ m_optimizer decoder = None /\ m_loss decoder = None
    /\ m_input autoencoder = m_input encoder
    /\ m_input decoder <> m_input encoder
    /\ m_width autoencoder = input_shape
    /\ m_width encoder = input_shape
    /\ m_width decoder = latent_dim
    /\ length (m_outputs encoder) = (if is_variational b then 3 else 1)%nat
    /\ length (m_outputs decoder) = 1%nat
    /\ length (m_outputs autoencoder) = 1%nat.
Proof.
  intros Hb _ _.
  destruct b; try contradiction; unfold call_builder; run_builder;
    do 4 eexists; (split; [reflexivity|]);
    cbn [m_optimizer m_loss m_input m_width m_outputs is_variational length];
    (split; [reflexivity|]);
    (split; [first [reflexivity | do 4 eexists; repeat split] |]);
    repeat split; try reflexivity; lia.
Qed.

End Builders.

(** ** Instances on concrete inputs *)

Definition no_registry : string -> option (vector -> vector) := fun _ => None.

Definition one_row_zero : matrix := [[0; 0]].

(** A training loop that leaves the parameters as they are. *)
Definition idle_fit (m : model) (args : fit_args) (W : weights) (g : rng)
    : pyerror + (nat * weights * rng) :=
  inr (O, W, g).

Lemma vanilla_latent_nonneg_witness :
  has_width 13 two_rows = true
  /\ exists autoencoder encoder decoder n' z,
       vanilla_models no_registry MultiLayer 2 13 O
       = inr (autoencoder, encoder, decoder, n')
       /\ predict encoder zero_weights two_rows zero_rng
          = Some ([z], zero_rng)
       /\ has_shape (length two_rows) 2 z
       /\ nonneg_matrix z.
Proof.
  split; [reflexivity|].
  apply (vanilla_latent_nonneg no_registry MultiLayer 2 13 O
           zero_weights two_rows zero_rng).
  reflexivity.
Defined.

Lemma variational_loss_formula_witness :
  has_width 13 two_rows = true
  /\ exists autoencoder encoder decoder n' f mu log_sigma z recon g',
       variational_builder no_registry MultiLayerVAE 2 13 0.001 O
       = inr (autoencoder, encoder, decoder, n')
       /\ m_loss autoencoder = Some (LossFn f)
       /\ predict encoder zero_weights two_rows zero_rng
          = Some ([mu; log_sigma; z], g')
       /\ predict autoencoder zero_weights two_rows zero_rng
          = Some ([recon], g')
       /\ forall y_true y_pred,
            f y_true y_pred zero_weights (m_input autoencoder, two_rows)
              zero_rng
            = Some (PerRow (spec_loss 0.001 two_rows recon mu log_sigma)).
Proof.
  split; [reflexivity|].
  apply (variational_loss_formula no_registry MultiLayerVAE 2 13 0.001 O
           zero_weights two_rows zero_rng).
  reflexivity.
Defined.

Lemma sample_reparameterizes_witness :
  has_shape 1 2 one_row_zero
  /\ has_shape 1 2 one_row_zero
  /\ let epsilon := fst (random_normal (1%nat, 2%nat) 0 1 zero_rng) in
     let z := fst (sample (one_row_zero, one_row_zero) zero_rng) in
     has_shape 1 2 epsilon
     /\ has_shape 1 2 z
     /\ (forall r d, (r < 1)%nat -> (d < 2)%nat ->
           entry epsilon r d = draws zero_rng (pos zero_rng + r * 2 + d)%nat
           /\ entry z r d
              = entry one_row_zero r d
                + exp (0.5 * entry one_row_zero r d) * entry epsilon r d)
     /\ pos (snd (sample (one_row_zero, one_row_zero) zero_rng))
        = (pos zero_rng + 1 * 2)%nat.
Proof.
  assert (H : has_shape 1 2 one_row_zero)
    by (split; [reflexivity | repeat constructor]).
  split; [exact H|]. split; [exact H|].
  exact (sample_reparameterizes 1 2 one_row_zero one_row_zero zero_rng H H).
Defined.

Lemma tune_fixed_constants_witness :
  same_as_build !! "encoder_units" = Some (PyInt 1024)
  /\ (0 <= 1024)%Z
  /\ same_as_build !! "decoder_units" = Some (PyInt 1024)
  /\ same_as_build !! "activation" = Some (PyStr "relu")
  /\ lookup_activation no_registry "relu" = Some Relu
  /\ same_as_build !! "epochs" = Some (PyInt 2)
  /\ let inputs := TInput 0 13 in
     let hidden := TDense 1 1024 Relu inputs in
     let mu := TDense 2 2 Linear hidden in
     let log_sigma := TDense 3 2 Linear hidden in
     let outputs :=
       TCall 5 2
         (TDense 7 13 Sigmoid (TDense 6 1024 Relu (TInput 5 2)))
         (TCall 0 13 (TSample mu log_sigma) inputs) in
     let autoencoder :=
       {| m_name := "autoencoder"; m_input := O; m_width := 13;
          m_outputs := [outputs];
          m_optimizer := Some (Adam 0.001);
          m_loss :=
            Some (LossFn (tune_vae_loss inputs outputs mu log_sigma 0.001))
       |} in
     tune_model no_registry same_as_build O = inr (autoencoder, 8%nat)
     /\ tune_single_layer_variational_autoencoder no_registry nat idle_fit
          two_rows one_row_zero two_rows one_row_zero same_as_build
          zero_weights zero_rng O
        = inr (O, autoencoder, zero_weights, zero_rng, 8%nat).
Proof.
  split; [reflexivity|]. split; [lia|].
  do 4 (split; [reflexivity|]).
  exact (tune_fixed_constants no_registry nat idle_fit same_as_build
           1024 1024 "relu" Relu (PyInt 2)
           two_rows one_row_zero two_rows one_row_zero
           zero_weights zero_rng O
           eq_refl ltac:(lia) eq_refl ltac:(lia) eq_refl eq_refl eq_refl).
Defined.

Lemma variational_encoder_outputs_witness :
  has_width 13 two_rows = true
  /\ exists autoencoder encoder decoder n' mu log_sigma,
       variational_builder no_registry SingleLayerVAE 2 13 0.001 O
       = inr (autoencoder, encoder, decoder, n')
       /\ has_shape (length two_rows) 2 mu
       /\ has_shape (length two_rows) 2 log_sigma
       /\ forall g,
            predict encoder zero_weights two_rows g
            = Some ([mu; log_sigma; fst (sample (mu, log_sigma) g)],
                    snd (sample (mu, log_sigma) g))
            /\ has_shape (length two_rows) 2 (fst (sample (mu, log_sigma) g))
            /\ pos (snd (sample (mu, log_sigma) g))
               = (pos g + length two_rows * 2)%nat.
Proof.
  split; [reflexivity|].
  apply (variational_encoder_outputs no_registry SingleLayerVAE 2 13 0.001 O
           zero_weights two_rows).
  reflexivity.
Defined.

Lemma sample_twice_fresh_draws_witness :
  has_shape 1 2 one_row_zero
  /\ let first := sample (one_row_zero, one_row_zero) zero_rng in
     let second := sample (one_row_zero, one_row_zero) (snd first) in
     forall r d, (r < 1)%nat -> (d < 2)%nat ->
       entry (fst first) r d
       = entry one_row_zero r d
         + exp (0.5 * entry one_row_zero r d)
           * draws zero_rng (pos zero_rng + (r * 2 + d))%nat
       /\ entry (fst second) r d
          = entry one_row_zero r d
            + exp (0.5 * entry one_row_zero r d)
              * draws zero_rng (pos zero_rng + (1 * 2 + (r * 2 + d)))%nat
       /\ (r * 2 + d < 1 * 2)%nat
       /\ (forall r' d', (r' < 1)%nat -> (d' < 2)%nat ->
             (r * 2 + d = r' * 2 + d')%nat -> r = r' /\ d = d').
Proof.
  assert (H : has_shape 1 2 one_row_zero)
    by (split; [reflexivity | repeat constructor]).
  split; [exact H|].
  exact (sample_twice_fresh_draws 1 2 one_row_zero one_row_zero
           one_row_zero one_row_zero zero_rng H H H H).
Defined.

Lemma tune_key_errors_witness :
  (∅ : gmap string pyval) !! "encoder_units" = None
  /\ tune_single_layer_variational_autoencoder no_registry nat idle_fit
       two_rows one_row_zero two_rows one_row_zero ∅ zero_weights zero_rng O
     = inl (KeyError "encoder_units").
Proof.
  split; [reflexivity|].
  apply (proj1 (tune_key_errors no_registry nat idle_fit
                  two_rows one_row_zero two_rows one_row_zero ∅
                  zero_weights zero_rng O 0%Z 0%Z "relu" Relu)).
  reflexivity.
Defined.

Lemma decoder_and_autoencoder_shapes_witness :
  has_width 13 two_rows = true
  /\ has_width 2 one_row_zero = true
  /\ exists autoencoder encoder decoder n' y recon g',
       models_of no_registry (Variational SingleLayerVAE 0.001) 2 13 O
       = inr (autoencoder, encoder, decoder, n')
       /\ predict decoder zero_weights one_row_zero zero_rng
          = Some ([y], zero_rng)
       /\ has_shape (length one_row_zero) 13 y
       /\ predict autoencoder zero_weights two_rows zero_rng
          = Some ([recon], g')
       /\ has_shape (length two_rows) 13 recon.
Proof.
  split; [reflexivity|]. split; [reflexivity|].
  exact (decoder_and_autoencoder_shapes no_registry
           (Variational SingleLayerVAE 0.001) 2 13 O
           zero_weights two_rows one_row_zero zero_rng eq_refl eq_refl).
Defined.

Lemma builders_return_witness :
  BuildSingleLayerVariational <> BuildMultipleLayer
  /\ (0 < 2)%nat /\ (0 < 13)%nat
  /\ exists autoencoder encoder decoder n',
       call_builder no_registry BuildSingleLayerVariational 2 13 0.001 O
       = inr (autoencoder, encoder, decoder, n')
       /\ m_optimizer autoencoder = Some (Adam 0.001)
       /\ (if is_variational BuildSingleLayerVariational
           then exists outputs mu log_sigma z,
                  m_outputs autoencoder = [outputs]
                  /\ m_outputs encoder = [mu; log_sigma; z]
                  /\ m_loss autoencoder
                     = Some (LossFn
                               (vae_loss (TInput (m_input autoencoder) 13)
                                  outputs mu log_sigma 0.001))
           else m_loss autoencoder = Some (LossName "mean_absolute_error"))
       /\ m_optimizer encoder = None /\ m_loss encoder = None
       /\ m_optimizer decoder = None /\ m_loss decoder = None
       /\ m_input autoencoder = m_input encoder
       /\ m_input decoder <> m_input encoder
       /\ m_width autoencoder = 13%nat
       /\ m_width encoder = 13%nat
       /\ m_width decoder = 2%nat
       /\ length (m_outputs encoder)
          = (if is_variational BuildSingleLayerVariational then 3 else 1)%nat
       /\ length (m_outputs decoder) = 1%nat
       /\ length (m_outputs autoencoder) = 1%nat.
Proof.
  assert (H : BuildSingleLayerVariational <> BuildMultipleLayer)
    by discriminate.
  assert (H2 : (0 < 2)%nat) by lia.
  assert (H13 : (0 < 13)%nat) by lia.
  split; [exact H|]. split; [exact H2|]. split; [exact H13|].
  exact (builders_return no_registry BuildSingleLayerVariational 2 13 0.001 O
           H H2 H13).
Defined.

